(** * django_elasticsearch_dsl.signals

    A shallow embedding of [src/django_elasticsearch_dsl/signals.py]: the
    signal processors that keep the search index in step with the models.

    The module is glue between four collaborators, none of which it
    defines: the document registry ([registry], the search index), Django's
    model signals ([models.signals]), Django's application registry and
    model managers ([apps.get_model], [model.objects.get]) and Celery's
    task queue ([shared_task], [.delay]).  The collaborators are kept
    abstract (records of operations) and every effect of the module on them
    is made explicit in a [World]: the index state, the log of index calls,
    the task queue, the receivers of each signal and the log of
    connect/disconnect calls.

    Python raises exceptions and keeps the side effects made before the
    raise; the monad [M] below does the same. *)

From stdpp Require Import base decidable option list strings.

Open Scope string_scope.
Open Scope list_scope.

(** ** Data *)

(** A primary key: an integer or a string (such as a UUID or a slug). *)
Inductive PkValue :=
| PkInt (n : Z)
| PkStr (s : string).

#[global] Instance PkValue_eq_dec : EqDecision PkValue.
Proof. solve_decision. Defined.

(** A model class, identified by its module and its [__name__]. *)
Record ModelClass := mkModelClass {
  __module__ : string;
  __name__ : string
}.

#[global] Instance ModelClass_eq_dec : EqDecision ModelClass.
Proof. solve_decision. Defined.

(** [instance._meta]: the module reads [app_label] and [concrete_model]. *)
Record Options := mkOptions {
  app_label : string;
  concrete_model : ModelClass
}.

#[global] Instance Options_eq_dec : EqDecision Options.
Proof. solve_decision. Defined.

(** A model instance: its primary key, its [_meta] and the values of its
    other fields, which this module never reads. *)
Record Instance := mkInstance {
  pk : PkValue;
  _meta : Options;
  field_values : list (string * string)
}.

#[global] Instance Instance_eq_dec : EqDecision Instance.
Proof. solve_decision. Defined.

(** ** Exceptions *)

(** An exception is seen through its class and the classes it inherits
    from, which is all that an [except] clause looks at. *)
Record exn := mkExn {
  exn_class : string;
  exn_bases : list string
}.

#[global] Instance exn_eq_dec : EqDecision exn.
Proof. solve_decision. Defined.

Definition isinstance (e : exn) (c : string) : bool :=
  bool_decide (c = exn_class e) || bool_decide (c ∈ exn_bases e).

Definition LookupError : exn :=
  mkExn "LookupError" ["Exception"; "BaseException"].

Definition AttributeError : exn :=
  mkExn "AttributeError" ["Exception"; "BaseException"].

Definition TypeError : exn :=
  mkExn "TypeError" ["Exception"; "BaseException"].

Definition DoesNotExist : exn :=
  mkExn "DoesNotExist" ["ObjectDoesNotExist"; "Exception"; "BaseException"].

Inductive result (A : Type) :=
| Ret (a : A)
| Raise (e : exn).

Arguments Ret {A} a.
Arguments Raise {A} e.

(** ** Collaborators *)

(** [registry] (module [registries], imported at line 13).  Each index
    operation may change the index state and may raise; [registry_delete]
    takes the [raise_on_error] keyword; [registry_contains] is the
    membership test [model in registry]. *)
Record Registry (St : Type) := mkRegistry {
  registry_update : Instance → St → option exn * St;
  registry_update_related : Instance → St → option exn * St;
  registry_delete_related : Instance → St → option exn * St;
  registry_delete : Instance → bool → St → option exn * St;
  registry_contains : ModelClass → St → bool
}.

Arguments registry_update {St} _ _ _.
Arguments registry_update_related {St} _ _ _.
Arguments registry_delete_related {St} _ _ _.
Arguments registry_delete {St} _ _ _ _.
Arguments registry_contains {St} _ _ _.

(** Django's application registry and model managers:
    [apps.get_model(app_label, model_name)] returns the model class or
    raises; [model.objects.get(pk=pk)] returns the instance or raises. *)
Record Store := mkStore {
  apps_get_model : string → string → exn + ModelClass;
  objects_get : ModelClass → PkValue → exn + Instance
}.

(** ** Classes and attribute lookup *)

Inductive Class :=
| BaseSignalProcessor
| DjangoSignalsMixin
| RealTimeSignalProcessor
| CelerySignalProcessor.

#[global] Instance Class_eq_dec : EqDecision Class.
Proof. solve_decision. Defined.

(** The base classes written in each [class] statement ([object] is left
    out). *)
Definition bases (c : Class) : list Class :=
  match c with
  | BaseSignalProcessor => []
  | DjangoSignalsMixin => []
  | RealTimeSignalProcessor => [DjangoSignalsMixin; BaseSignalProcessor]
  | CelerySignalProcessor => [DjangoSignalsMixin; BaseSignalProcessor]
  end.

(** The method resolution order: the class, then the linearisation of its
    bases, which here is the bases from left to right. *)
Definition mro (c : Class) : list Class :=
  c :: bases c.

(** The names bound in each class body. *)
Definition class_dict (c : Class) : list string :=
  match c with
  | BaseSignalProcessor =>
      ["__init__"; "setup"; "teardown"; "handle_m2m_changed"; "handle_save";
       "handle_pre_delete"; "handle_delete"]
  | DjangoSignalsMixin => ["setup"; "teardown"]
  | RealTimeSignalProcessor => []
  | CelerySignalProcessor =>
      ["handle_save"; "registry_update_task"; "registry_update_related_task"]
  end.

(** [resolve c a]: the first class of the MRO of [c] whose body binds [a]. *)
Definition resolve (c : Class) (a : string) : option Class :=
  List.find (λ k, bool_decide (a ∈ class_dict k)) (mro c).

(** The classes that inherit the handlers of [BaseSignalProcessor]. *)
Definition is_processor (c : Class) : bool :=
  bool_decide (BaseSignalProcessor ∈ mro c).

(** ** Signals and tasks *)

(** [models.signals.post_save] and the other three signals used. *)
Inductive SignalName :=
| post_save
| post_delete
| m2m_changed
| pre_delete.

#[global] Instance SignalName_eq_dec : EqDecision SignalName.
Proof. solve_decision. Defined.

(** A bound method [self.name]: the object it is bound to, the class whose
    body holds the function, and the name. *)
Record Receiver := mkReceiver {
  im_self : nat;
  im_class : Class;
  im_name : string
}.

#[global] Instance Receiver_eq_dec : EqDecision Receiver.
Proof. solve_decision. Defined.

Record Signals := mkSignals {
  post_save_receivers : list Receiver;
  post_delete_receivers : list Receiver;
  m2m_changed_receivers : list Receiver;
  pre_delete_receivers : list Receiver
}.

Definition receivers (s : SignalName) (t : Signals) : list Receiver :=
  match s with
  | post_save => post_save_receivers t
  | post_delete => post_delete_receivers t
  | m2m_changed => m2m_changed_receivers t
  | pre_delete => pre_delete_receivers t
  end.

Definition set_receivers (s : SignalName) (l : list Receiver) (t : Signals)
  : Signals :=
  match s with
  | post_save =>
      mkSignals l (post_delete_receivers t) (m2m_changed_receivers t)
        (pre_delete_receivers t)
  | post_delete =>
      mkSignals (post_save_receivers t) l (m2m_changed_receivers t)
        (pre_delete_receivers t)
  | m2m_changed =>
      mkSignals (post_save_receivers t) (post_delete_receivers t) l
        (pre_delete_receivers t)
  | pre_delete =>
      mkSignals (post_save_receivers t) (post_delete_receivers t)
        (m2m_changed_receivers t) l
  end.

Inductive SignalCall :=
| Connect (s : SignalName) (r : Receiver)
| Disconnect (s : SignalName) (r : Receiver).

(** The first occurrence of [r] is dropped, as [Signal.disconnect] does. *)
Fixpoint remove_first (r : Receiver) (l : list Receiver) : list Receiver :=
  match l with
  | [] => []
  | x :: l' => if bool_decide (x = r) then l' else x :: remove_first r l'
  end.

(** A receiver already in the list is not added again, as
    [Signal.connect] does. *)
Definition add_receiver (r : Receiver) (l : list Receiver) : list Receiver :=
  if bool_decide (r ∈ l) then l else l ++ [r].

(** The two Celery tasks declared with [@shared_task()]. *)
Inductive Task :=
| registry_update_task_
| registry_update_related_task_.

(** A message on the queue: the task and the positional arguments given to
    [.delay]. *)
Record TaskMessage := mkTaskMessage {
  task : Task;
  arg_pk : PkValue;
  arg_app_label : string;
  arg_model_name : string
}.

(** A call made on the registry. *)
Inductive IndexCall :=
| CallUpdate (instance : Instance)
| CallUpdateRelated (instance : Instance)
| CallDeleteRelated (instance : Instance)
| CallDelete (instance : Instance) (raise_on_error : bool).

(** ** The world and the monad *)

Section Processors.

Context {St : Type} {Conn : Type}.

Record World := mkWorld {
  index : St;
  index_log : list IndexCall;
  queue : list TaskMessage;
  signals : Signals;
  signal_log : list SignalCall;
  next_id : nat
}.

Definition M (A : Type) : Type := World → result A * World.

Definition ret {A} (a : A) : M A := λ w, (Ret a, w).

Definition raise {A} (e : exn) : M A := λ w, (Raise e, w).

Definition bind {A B} (m : M A) (k : A → M B) : M B :=
  λ w, match m w with
       | (Ret a, w') => k a w'
       | (Raise e, w') => (Raise e, w')
       end.

(** A processor object: its identity, its class, and the [connections]
    attribute, unset until [__init__] runs. *)
Record Processor := mkProcessor {
  oid : nat;
  __class__ : Class;
  connections : option Conn
}.

End Processors.

Arguments World St : clear implicits.
Arguments M St A : clear implicits.
Arguments Processor Conn : clear implicits.

Declare Scope proc_scope.
Delimit Scope proc_scope with proc.
Bind Scope proc_scope with M.

Notation "x <- c1 ;; c2" := (bind c1 (λ x, c2))
  (at level 20, c1 at level 99, c2 at level 200) : proc_scope.
Notation "c1 ;; c2" := (bind c1 (λ _, c2))
  (at level 100, c2 at level 200, right associativity) : proc_scope.

Open Scope proc_scope.

(** ** The module *)

Section Handlers.

Context {St : Type} {Conn : Type}.
Variable registry : Registry St.
Variable store : Store.

(** *** Effects on the collaborators *)

(** A call on the registry: logged, applied to the index state, and raising
    what the registry raises. *)
Definition call_registry (c : IndexCall) (op : St → option exn * St)
  : M St unit :=
  λ w, let '(r, s) := op (index w) in
       (match r with
        | None => Ret tt
        | Some e => Raise e
        end,
        mkWorld s (index_log w ++ [c]) (queue w) (signals w) (signal_log w)
          (next_id w)).

Definition update (instance : Instance) : M St unit :=
  call_registry (CallUpdate instance) (registry_update registry instance).

Definition update_related (instance : Instance) : M St unit :=
  call_registry (CallUpdateRelated instance)
    (registry_update_related registry instance).

Definition delete_related (instance : Instance) : M St unit :=
  call_registry (CallDeleteRelated instance)
    (registry_delete_related registry instance).

Definition delete_ (instance : Instance) (raise_on_error : bool) : M St unit :=
  call_registry (CallDelete instance raise_on_error)
    (registry_delete registry instance raise_on_error).

(** [model in registry]: a read of the registry. *)
Definition contains (model : ModelClass) : M St bool :=
  λ w, (Ret (registry_contains registry model (index w)), w).

(** [signal.connect(receiver)]: a receiver already connected is not added
    again. *)
Definition connect (s : SignalName) (r : Receiver) : M St unit :=
  λ w, (Ret tt,
        mkWorld (index w) (index_log w) (queue w)
          (set_receivers s (add_receiver r (receivers s (signals w)))
             (signals w))
          (signal_log w ++ [Connect s r]) (next_id w)).

(** [signal.disconnect(receiver)]. *)
Definition disconnect (s : SignalName) (r : Receiver) : M St unit :=
  λ w, (Ret tt,
        mkWorld (index w) (index_log w) (queue w)
          (set_receivers s (remove_first r (receivers s (signals w)))
             (signals w))
          (signal_log w ++ [Disconnect s r]) (next_id w)).

(** [task.delay(pk, app_label, model_name)]: the message is put on the
    queue and nothing is awaited. *)
Definition delay (t : Task) (pk0 : PkValue) (app_label0 model_name : string)
  : M St unit :=
  λ w, (Ret tt,
        mkWorld (index w) (index_log w)
          (queue w ++ [mkTaskMessage t pk0 app_label0 model_name])
          (signals w) (signal_log w) (next_id w)).

(** [self.name] for a method: the bound method, or [AttributeError]. *)
Definition bound_method (self : Processor Conn) (name : string)
  : option Receiver :=
  match resolve (__class__ self) name with
  | Some k => Some (mkReceiver (oid self) k name)
  | None => None
  end.

Definition getattr_method (self : Processor Conn) (name : string)
  : M St Receiver :=
  match bound_method self name with
  | Some r => ret r
  | None => raise AttributeError
  end.

(** [self.registry_update_task] and [self.registry_update_related_task]:
    class attributes of [CelerySignalProcessor]. *)
Definition getattr_task (self : Processor Conn) (name : string) : M St Task :=
  match resolve (__class__ self) name with
  | Some CelerySignalProcessor =>
      if bool_decide (name = "registry_update_task")
      then ret registry_update_task_
      else if bool_decide (name = "registry_update_related_task")
           then ret registry_update_related_task_
           else raise AttributeError
  | _ => raise AttributeError
  end.

(** *** BaseSignalProcessor *)

(** Lines 27-35. *)
Definition BaseSignalProcessor_setup (self : Processor Conn) : M St unit :=
  ret tt.

(** Lines 37-45. *)
Definition BaseSignalProcessor_teardown (self : Processor Conn) : M St unit :=
  ret tt.

(** Lines 53-60. *)
Definition BaseSignalProcessor_handle_save (self : Processor Conn)
  (sender : ModelClass) (instance : Instance) : M St unit :=
  update instance ;;
  update_related instance.

(** Lines 62-67. *)
Definition BaseSignalProcessor_handle_pre_delete (self : Processor Conn)
  (sender : ModelClass) (instance : Instance) : M St unit :=
  delete_related instance.

(** Lines 69-74. *)
Definition BaseSignalProcessor_handle_delete (self : Processor Conn)
  (sender : ModelClass) (instance : Instance) : M St unit :=
  delete_ instance false.

(** *** CelerySignalProcessor *)

(** Lines 124-136. *)
Definition CelerySignalProcessor_handle_save (self : Processor Conn)
  (sender : ModelClass) (instance : Instance) : M St unit :=
  let pk0 := pk instance in
  let app_label0 := app_label (_meta instance) in
  let model_name := __name__ (concrete_model (_meta instance)) in
  known <- contains (concrete_model (_meta instance)) ;;
  if negb known then
    t1 <- getattr_task self "registry_update_task" ;;
    delay t1 pk0 app_label0 model_name ;;
    t2 <- getattr_task self "registry_update_related_task" ;;
    delay t2 pk0 app_label0 model_name
  else ret tt.

(** [model.objects.get(pk=pk)]. *)
Definition get (model : ModelClass) (pk0 : PkValue) : M St Instance :=
  match objects_get store model pk0 with
  | inr instance => ret instance
  | inl e => raise e
  end.

(** Lines 138-148.  Only the call of [apps.get_model] is inside the [try];
    the [else] branch is not guarded. *)
Definition registry_update_task (pk0 : PkValue) (app_label0 model_name : string)
  : M St unit :=
  match apps_get_model store app_label0 model_name with
  | inl e => if isinstance e "LookupError" then ret tt else raise e
  | inr model =>
      instance <- get model pk0 ;;
      update instance
  end.

(** Lines 150-160. *)
Definition registry_update_related_task (pk0 : PkValue)
  (app_label0 model_name : string) : M St unit :=
  match apps_get_model store app_label0 model_name with
  | inl e => if isinstance e "LookupError" then ret tt else raise e
  | inr model =>
      instance <- get model pk0 ;;
      update_related instance
  end.

(** A worker running a message taken from the queue. *)
Definition run_task (m : TaskMessage) : M St unit :=
  match task m with
  | registry_update_task_ =>
      registry_update_task (arg_pk m) (arg_app_label m) (arg_model_name m)
  | registry_update_related_task_ =>
      registry_update_related_task (arg_pk m) (arg_app_label m)
        (arg_model_name m)
  end.

(** *** Method calls on [self]

    [self.handle_save(...)] and the like run the body found along the MRO
    of the class of [self]. *)

Definition handle_save (self : Processor Conn) (sender : ModelClass)
  (instance : Instance) : M St unit :=
  match resolve (__class__ self) "handle_save" with
  | Some BaseSignalProcessor =>
      BaseSignalProcessor_handle_save self sender instance
  | Some CelerySignalProcessor =>
      CelerySignalProcessor_handle_save self sender instance
  | _ => raise AttributeError
  end.

Definition handle_pre_delete (self : Processor Conn) (sender : ModelClass)
  (instance : Instance) : M St unit :=
  match resolve (__class__ self) "handle_pre_delete" with
  | Some BaseSignalProcessor =>
      BaseSignalProcessor_handle_pre_delete self sender instance
  | _ => raise AttributeError
  end.

Definition handle_delete (self : Processor Conn) (sender : ModelClass)
  (instance : Instance) : M St unit :=
  match resolve (__class__ self) "handle_delete" with
  | Some BaseSignalProcessor =>
      BaseSignalProcessor_handle_delete self sender instance
  | _ => raise AttributeError
  end.

(** Lines 47-51. *)
Definition BaseSignalProcessor_handle_m2m_changed (self : Processor Conn)
  (sender : ModelClass) (instance : Instance) (action : string) : M St unit :=
  if bool_decide (action ∈ ["post_add"; "post_remove"; "post_clear"]) then
    handle_save self sender instance
  else if bool_decide (action ∈ ["pre_remove"; "pre_clear"]) then
    handle_pre_delete self sender instance
  else ret tt.

Definition handle_m2m_changed (self : Processor Conn) (sender : ModelClass)
  (instance : Instance) (action : string) : M St unit :=
  match resolve (__class__ self) "handle_m2m_changed" with
  | Some BaseSignalProcessor =>
      BaseSignalProcessor_handle_m2m_changed self sender instance action
  | _ => raise AttributeError
  end.

(** *** DjangoSignalsMixin *)

(** Lines 81-88. *)
Definition DjangoSignalsMixin_setup (self : Processor Conn) : M St unit :=
  r <- getattr_method self "handle_save" ;;
  connect post_save r ;;
  r <- getattr_method self "handle_delete" ;;
  connect post_delete r ;;
  r <- getattr_method self "handle_m2m_changed" ;;
  connect m2m_changed r ;;
  r <- getattr_method self "handle_pre_delete" ;;
  connect pre_delete r.

(** Lines 90-95. *)
Definition DjangoSignalsMixin_teardown (self : Processor Conn) : M St unit :=
  r <- getattr_method self "handle_save" ;;
  disconnect post_save r ;;
  r <- getattr_method self "handle_delete" ;;
  disconnect post_delete r ;;
  r <- getattr_method self "handle_m2m_changed" ;;
  disconnect m2m_changed r ;;
  r <- getattr_method self "handle_pre_delete" ;;
  disconnect pre_delete r.

Definition setup (self : Processor Conn) : M St unit :=
  match resolve (__class__ self) "setup" with
  | Some BaseSignalProcessor => BaseSignalProcessor_setup self
  | Some DjangoSignalsMixin => DjangoSignalsMixin_setup self
  | _ => raise AttributeError
  end.

Definition teardown (self : Processor Conn) : M St unit :=
  match resolve (__class__ self) "teardown" with
  | Some BaseSignalProcessor => BaseSignalProcessor_teardown self
  | Some DjangoSignalsMixin => DjangoSignalsMixin_teardown self
  | _ => raise AttributeError
  end.

(** *** Construction *)

(** Lines 23-25. *)
Definition BaseSignalProcessor___init__ (self : Processor Conn)
  (connections0 : Conn) : M St (Processor Conn) :=
  let self := mkProcessor (oid self) (__class__ self) (Some connections0) in
  setup self ;;
  ret self.

(** [cls(connections)]: a fresh object of class [cls] is allocated and the
    [__init__] found along the MRO runs on it.  A class that inherits
    [object.__init__] takes no argument. *)
Definition new (cls : Class) (connections0 : Conn) : M St (Processor Conn) :=
  λ w, let self := mkProcessor (next_id w) cls None in
       let w' := mkWorld (index w) (index_log w) (queue w) (signals w)
                   (signal_log w) (S (next_id w)) in
       match resolve cls "__init__" with
       | Some BaseSignalProcessor =>
           BaseSignalProcessor___init__ self connections0 w'
       | _ => (Raise TypeError, w')
       end.

End Handlers.

(** ** Sample collaborators

    A small blog: the index holds the instances it was given; deleting an
    instance that is not indexed is an index error, raised only when
    [raise_on_error] is set; the registry knows the [Tag] model. *)

Definition Article : ModelClass := mkModelClass "blog.models" "Article".

Definition Tag : ModelClass := mkModelClass "blog.models" "Tag".

Definition article7 : Instance :=
  mkInstance (PkInt 7) (mkOptions "blog" Article) [("title", "Hello")].

Definition tag3 : Instance :=
  mkInstance (PkInt 3) (mkOptions "blog" Tag) [("name", "news")].

Definition NotFoundError : exn :=
  mkExn "NotFoundError" ["TransportError"; "Exception"; "BaseException"].

Definition ConnectionError : exn :=
  mkExn "ConnectionError" ["TransportError"; "Exception"; "BaseException"].

Definition blog_registry : Registry (list Instance) :=
  mkRegistry (list Instance)
    (λ i s, (None, i :: s))
    (λ i s, (None, s))
    (λ i s, (None, s))
    (λ i raise_on_error s,
       if bool_decide (i ∈ s)
       then (None, filter (λ j, j ≠ i) s)
       else (if raise_on_error then Some NotFoundError else None, s))
    (λ m s, bool_decide (m = Tag)).

(** An index that cannot be reached: every write raises. *)
Definition down_registry : Registry (list Instance) :=
  mkRegistry (list Instance)
    (λ i s, (Some ConnectionError, s))
    (λ i s, (Some ConnectionError, s))
    (λ i s, (Some ConnectionError, s))
    (λ i raise_on_error s, (Some ConnectionError, s))
    (λ m s, false).

(** An index whose related update fails. *)
Definition flaky_registry : Registry (list Instance) :=
  mkRegistry (list Instance)
    (λ i s, (None, i :: s))
    (λ i s, (Some ConnectionError, s))
    (λ i s, (None, s))
    (λ i raise_on_error s, (None, s))
    (λ m s, false).

Definition blog_store : Store :=
  mkStore
    (λ app model_name,
       if bool_decide (app = "blog" ∧ model_name = "Article")
       then inr Article
       else if bool_decide (app = "blog" ∧ model_name = "Tag")
            then inr Tag
            else inl LookupError)
    (λ model pk0,
       if bool_decide (model = Article ∧ pk0 = PkInt 7) then inr article7
       else inl DoesNotExist).

(** Modelled from the spec: [registry.delete] is defined in [registries.py],
    which is not among the sources.  The spec says of its keyword that an
    index write failure on delete is "suppressed ([raise_on_error=False])":
    called with [raise_on_error=False], the registry does not raise. *)
Definition suppresses_delete_errors {St : Type} (registry : Registry St)
  : Prop :=
  ∀ instance s, (registry_delete registry instance false s).1 = None.

Definition no_signals : Signals := mkSignals [] [] [] [].

Definition world0 : World (list Instance) :=
  mkWorld [] [] [] no_signals [] 0.

Definition base0 : Processor (list string) :=
  mkProcessor 0 BaseSignalProcessor (Some ["default"]).

Definition realtime0 : Processor (list string) :=
  mkProcessor 0 RealTimeSignalProcessor (Some ["default"]).

Definition celery0 : Processor (list string) :=
  mkProcessor 0 CelerySignalProcessor (Some ["default"]).

(** An instance of a proxy model declared in another app: its [app_label]
    is the proxy's, its concrete model is [Article]. *)
Definition proxy5 : Instance :=
  mkInstance (PkInt 5) (mkOptions "news" Article) [("title", "Proxy")].

Definition AppRegistryNotReady : exn :=
  mkExn "AppRegistryNotReady" ["Exception"; "BaseException"].

(** A store whose application registry is not loaded yet. *)
Definition starting_store : Store :=
  mkStore (λ app model_name, inl AppRegistryNotReady)
    (λ model pk0, inl DoesNotExist).

(** A world in which another processor, object 1, already listens to
    [post_save]. *)
Definition other_receiver : Receiver :=
  mkReceiver 1 BaseSignalProcessor "handle_save".

Definition world_busy : World (list Instance) :=
  mkWorld [] [] [] (mkSignals [other_receiver] [] [] []) [] 2.

(** ** Relations between worlds, used to state what an operation leaves
    alone *)

(** The receivers of every signal, the log of connect/disconnect calls and
    the allocation counter are those of [w]. *)
Definition subscriptions_untouched {St : Type} (w w' : World St) : Prop :=
  signals w' = signals w
  ∧ signal_log w' = signal_log w
  ∧ next_id w' = next_id w.

(** The index, the log of registry calls and the task queue are those of
    [w]. *)
Definition index_and_queue_untouched {St : Type} (w w' : World St) : Prop :=
  index w' = index w
  ∧ index_log w' = index_log w
  ∧ queue w' = queue w.


(** * Properties *)

Section Properties.

Context {St : Type} {Conn : Type}.
Variable registry : Registry St.
Variable store : Store.

Implicit Types (self : Processor Conn) (sender : ModelClass)
  (instance : Instance) (w : World St) (action : string).

(** ** Attribute lookup *)

Lemma is_processor_cases (c : Class) :
  is_processor c = true →
  c = BaseSignalProcessor ∨ c = RealTimeSignalProcessor
  ∨ c = CelerySignalProcessor.
Proof. destruct c; vm_compute; intros H; auto; discriminate H. Qed.

Lemma mixin_base_cases (c : Class) :
  DjangoSignalsMixin ∈ bases c →
  c = RealTimeSignalProcessor ∨ c = CelerySignalProcessor.
Proof.
  destruct c; simpl; intros H; auto; inversion H.
Qed.

Ltac by_processor_class H :=
  destruct (is_processor_cases _ H) as [-> | [-> | ->]]; reflexivity.

Lemma resolve_handle_delete (c : Class) :
  is_processor c = true → resolve c "handle_delete" = Some BaseSignalProcessor.
Proof. intros H. by_processor_class H. Qed.

Lemma resolve_handle_pre_delete (c : Class) :
  is_processor c = true →
  resolve c "handle_pre_delete" = Some BaseSignalProcessor.
Proof. intros H. by_processor_class H. Qed.

Lemma resolve_handle_m2m_changed (c : Class) :
  is_processor c = true →
  resolve c "handle_m2m_changed" = Some BaseSignalProcessor.
Proof. intros H. by_processor_class H. Qed.

Lemma resolve_handle_save (c : Class) :
  is_processor c = true →
  resolve c "handle_save" =
    Some (if bool_decide (c = CelerySignalProcessor)
          then CelerySignalProcessor else BaseSignalProcessor).
Proof. intros H. by_processor_class H. Qed.

(** ** The deferred save handler *)

Lemma celery_handle_save_eq (n : nat) (c : option Conn) sender
  instance w :
  let self := mkProcessor n CelerySignalProcessor c in
  let model := concrete_model (_meta instance) in
  let message t :=
    mkTaskMessage t (pk instance) (app_label (_meta instance))
      (__name__ model) in
  handle_save registry self sender instance w =
    (Ret tt,
     mkWorld (index w) (index_log w)
       (queue w ++
          (if registry_contains registry model (index w) then []
           else [message registry_update_task_;
                 message registry_update_related_task_]))
       (signals w) (signal_log w) (next_id w)).
Proof.
  intros self model message.
  change (handle_save registry self sender instance)
    with (CelerySignalProcessor_handle_save registry self sender instance).
  unfold CelerySignalProcessor_handle_save, bind, contains. simpl.
  fold model. destruct (registry_contains registry model (index w)); simpl.
  - rewrite app_nil_r. unfold ret. destruct w; reflexivity.
  - unfold delay; simpl. rewrite <- app_assoc. reflexivity.
Qed.

(** C1: on a [CelerySignalProcessor], handling a save of an instance whose
    concrete model is not in the registry puts exactly two messages on the
    queue, one for [registry_update_task] and one for
    [registry_update_related_task], each carrying the primary key, the app
    label and the model name and nothing else of the instance; when the
    concrete model is in the registry nothing is enqueued.  In both cases
    the handler returns normally and neither the index nor the log of index
    calls changes. *)
Theorem celery_handle_save_enqueues (n : nat) (c : option Conn) sender
  instance w :
  let self := mkProcessor n CelerySignalProcessor c in
  let model := concrete_model (_meta instance) in
  let message t :=
    mkTaskMessage t (pk instance) (app_label (_meta instance))
      (__name__ model) in
  handle_save registry self sender instance w =
    (Ret tt,
     mkWorld (index w) (index_log w)
       (queue w ++
          (if registry_contains registry model (index w) then []
           else [message registry_update_task_;
                 message registry_update_related_task_]))
       (signals w) (signal_log w) (next_id w)).
Proof. apply celery_handle_save_eq. Qed.

(** ** Deletes on the deferred processor *)

(** C2: [CelerySignalProcessor] binds [handle_save] and no other handler:
    every other method resolves to the class it resolves to on
    [RealTimeSignalProcessor], so its delete and pre-delete handlers are
    those of [BaseSignalProcessor].  Handling a delete or a pre-delete
    makes the index call inline and leaves the task queue as it was. *)
Theorem celery_delete_not_deferred (n : nat) (c : option Conn) sender
  instance w :
  let self := mkProcessor n CelerySignalProcessor c in
  (∀ a, a ∈ class_dict BaseSignalProcessor → a ≠ "handle_save" →
        resolve CelerySignalProcessor a = resolve RealTimeSignalProcessor a)
  ∧ resolve CelerySignalProcessor "handle_save" = Some CelerySignalProcessor
  ∧ handle_delete registry self sender instance =
      BaseSignalProcessor_handle_delete registry self sender instance
  ∧ handle_pre_delete registry self sender instance =
      BaseSignalProcessor_handle_pre_delete registry self sender instance
  ∧ queue (handle_delete registry self sender instance w).2 = queue w
  ∧ queue (handle_pre_delete registry self sender instance w).2 = queue w
  ∧ index_log (handle_delete registry self sender instance w).2 =
      index_log w ++ [CallDelete instance false]
  ∧ index_log (handle_pre_delete registry self sender instance w).2 =
      index_log w ++ [CallDeleteRelated instance].
Proof.
  intros self. split; [| split; [reflexivity |]].
  - intros a Ha Hne. simpl in Ha.
    repeat (apply elem_of_cons in Ha as [-> | Ha]; [try reflexivity |]);
      [congruence | inversion Ha].
  - repeat split; try reflexivity.
    all: unfold handle_delete, handle_pre_delete; simpl;
      unfold BaseSignalProcessor_handle_delete,
        BaseSignalProcessor_handle_pre_delete, delete_, delete_related,
        call_registry.
    + destruct (registry_delete registry instance false (index w)); reflexivity.
    + destruct (registry_delete_related registry instance (index w));
        reflexivity.
    + destruct (registry_delete registry instance false (index w)); reflexivity.
    + destruct (registry_delete_related registry instance (index w));
        reflexivity.
Qed.

(** ** Dispatch of relation changes *)

Lemma post_action_true action :
  action ∈ ["post_add"; "post_remove"; "post_clear"] →
  bool_decide (action ∈ ["post_add"; "post_remove"; "post_clear"]) = true.
Proof. apply bool_decide_eq_true_2. Qed.

Lemma pre_action_not_post action :
  action ∈ ["pre_remove"; "pre_clear"] →
  bool_decide (action ∈ ["post_add"; "post_remove"; "post_clear"]) = false.
Proof.
  intros H.
  repeat (apply elem_of_cons in H as [-> | H]; [reflexivity |]).
  inversion H.
Qed.

(** C3: the relation-changed handler forwards by action: [post_add],
    [post_remove] and [post_clear] run [self.handle_save(sender, instance)];
    [pre_remove] and [pre_clear] run
    [self.handle_pre_delete(sender, instance)]. *)
Theorem handle_m2m_changed_forwards self sender instance :
  is_processor (__class__ self) = true →
  (∀ action, action ∈ ["post_add"; "post_remove"; "post_clear"] →
     handle_m2m_changed registry self sender instance action =
     handle_save registry self sender instance)
  ∧ (∀ action, action ∈ ["pre_remove"; "pre_clear"] →
     handle_m2m_changed registry self sender instance action =
     handle_pre_delete registry self sender instance).
Proof.
  intros Hc. split; intros action Ha.
  - unfold handle_m2m_changed. rewrite (resolve_handle_m2m_changed _ Hc).
    unfold BaseSignalProcessor_handle_m2m_changed.
    rewrite (post_action_true _ Ha). reflexivity.
  - unfold handle_m2m_changed. rewrite (resolve_handle_m2m_changed _ Hc).
    unfold BaseSignalProcessor_handle_m2m_changed.
    rewrite (pre_action_not_post _ Ha), bool_decide_eq_true_2 by exact Ha.
    reflexivity.
Qed.

(** C10: for an action that is none of the five above, such as [pre_add],
    the relation-changed handler returns normally and changes nothing: no
    index call, no task, the index state as it was. *)
Theorem handle_m2m_changed_other_action self sender instance action w :
  is_processor (__class__ self) = true →
  action ∉ ["post_add"; "post_remove"; "post_clear"; "pre_remove";
            "pre_clear"] →
  handle_m2m_changed registry self sender instance action w = (Ret tt, w).
Proof.
  intros Hc Ha.
  unfold handle_m2m_changed. rewrite (resolve_handle_m2m_changed _ Hc).
  unfold BaseSignalProcessor_handle_m2m_changed.
  rewrite !bool_decide_eq_false_2; [reflexivity | |].
  - intros H. apply Ha. rewrite !elem_of_cons in *. tauto.
  - intros H. apply Ha. rewrite !elem_of_cons in *. tauto.
Qed.

(** ** The delete handler *)

Lemma handle_delete_is_delete self sender instance :
  is_processor (__class__ self) = true →
  handle_delete registry self sender instance = delete_ registry instance false.
Proof.
  intros Hc. unfold handle_delete. rewrite (resolve_handle_delete _ Hc).
  reflexivity.
Qed.

(** The handler has no [try] of its own: what [registry.delete] raises, it
    raises. *)
Lemma handle_delete_no_guard self sender instance w e :
  is_processor (__class__ self) = true →
  (registry_delete registry instance false (index w)).1 = Some e →
  (handle_delete registry self sender instance w).1 = Raise e.
Proof.
  intros Hc He. rewrite (handle_delete_is_delete _ _ _ Hc).
  unfold delete_, call_registry.
  destruct (registry_delete registry instance false (index w)) as [r s].
  simpl in *. subst r. reflexivity.
Qed.

(** C4: the delete handler makes one call on the registry,
    [registry.delete(instance, raise_on_error=False)], and, the registry
    suppressing index errors under that keyword, returns normally whatever
    happens in the index. *)
Theorem handle_delete_suppresses self sender instance w :
  is_processor (__class__ self) = true →
  suppresses_delete_errors registry →
  handle_delete registry self sender instance = delete_ registry instance false
  ∧ index_log (handle_delete registry self sender instance w).2 =
      index_log w ++ [CallDelete instance false]
  ∧ (handle_delete registry self sender instance w).1 = Ret tt.
Proof.
  intros Hc Hs. rewrite (handle_delete_is_delete _ _ _ Hc).
  split; [reflexivity |].
  unfold delete_, call_registry. specialize (Hs instance (index w)).
  destruct (registry_delete registry instance false (index w)) as [r s].
  simpl in *. subst r. split; reflexivity.
Qed.

(** ** The deferred tasks *)

Lemma update_log instance w :
  index_log (update registry instance w).2 =
  index_log w ++ [CallUpdate instance].
Proof.
  unfold update, call_registry.
  destruct (registry_update registry instance (index w)); reflexivity.
Qed.

Lemma update_related_log instance w :
  index_log (update_related registry instance w).2 =
  index_log w ++ [CallUpdateRelated instance].
Proof.
  unfold update_related, call_registry.
  destruct (registry_update_related registry instance (index w)); reflexivity.
Qed.

(** C5: a deferred task run on [(pk, app_label, model_name)].  When
    [apps.get_model] raises a [LookupError] the task returns normally and
    touches nothing.  When the model resolves and the instance is fetched,
    the task is the registry call on the fetched instance: [update] for
    [registry_update_task], [update_related] for
    [registry_update_related_task].  When the model resolves and the fetch
    raises, the task raises the same exception and the registry is not
    called. *)
Theorem deferred_task_outcomes (pk0 : PkValue) (app_label0 model_name : string)
  w :
  (∀ e, apps_get_model store app_label0 model_name = inl e →
        isinstance e "LookupError" = true →
        registry_update_task registry store pk0 app_label0 model_name w =
          (Ret tt, w)
        ∧ registry_update_related_task registry store pk0 app_label0
            model_name w = (Ret tt, w))
  ∧ (∀ model instance,
        apps_get_model store app_label0 model_name = inr model →
        objects_get store model pk0 = inr instance →
        registry_update_task registry store pk0 app_label0 model_name w =
          update registry instance w
        ∧ index_log
            (registry_update_task registry store pk0 app_label0 model_name
               w).2 = index_log w ++ [CallUpdate instance]
        ∧ registry_update_related_task registry store pk0 app_label0
            model_name w = update_related registry instance w
        ∧ index_log
            (registry_update_related_task registry store pk0 app_label0
               model_name w).2 = index_log w ++ [CallUpdateRelated instance])
  ∧ (∀ model e,
        apps_get_model store app_label0 model_name = inr model →
        objects_get store model pk0 = inl e →
        registry_update_task registry store pk0 app_label0 model_name w =
          (Raise e, w)
        ∧ registry_update_related_task registry store pk0 app_label0
            model_name w = (Raise e, w)).
Proof.
  unfold registry_update_task, registry_update_related_task.
  split; [| split].
  - intros e -> ->. split; reflexivity.
  - intros model instance -> Hget. unfold bind, get. rewrite Hget. simpl.
    rewrite update_log, update_related_log. repeat split; reflexivity.
  - intros model e -> Hget. unfold bind, get. rewrite Hget.
    split; reflexivity.
Qed.

(** ** The synchronous save handler *)

Lemma base_handle_save_eq self sender instance w :
  let '(r1, s1) := registry_update registry instance (index w) in
  let '(r2, s2) := registry_update_related registry instance s1 in
  BaseSignalProcessor_handle_save registry self sender instance w =
    match r1 with
    | Some e =>
        (Raise e,
         mkWorld s1 (index_log w ++ [CallUpdate instance]) (queue w)
           (signals w) (signal_log w) (next_id w))
    | None =>
        (match r2 with
         | Some e => Raise e
         | None => Ret tt
         end,
         mkWorld s2
           (index_log w ++ [CallUpdate instance; CallUpdateRelated instance])
           (queue w) (signals w) (signal_log w) (next_id w))
    end.
Proof.
  unfold BaseSignalProcessor_handle_save, bind, update, update_related,
    call_registry.
  destruct (registry_update registry instance (index w)) as [r1 s1] eqn:E1.
  destruct (registry_update_related registry instance s1) as [r2 s2] eqn:E2.
  destruct r1 as [e |]; simpl.
  - reflexivity.
  - rewrite E2, <- app_assoc. reflexivity.
Qed.

Lemma sync_handle_save_is_base self sender instance :
  __class__ self ∈ [BaseSignalProcessor; RealTimeSignalProcessor] →
  handle_save registry self sender instance =
  BaseSignalProcessor_handle_save registry self sender instance.
Proof.
  intros H. unfold handle_save.
  repeat (apply elem_of_cons in H as [-> | H]; [reflexivity |]).
  inversion H.
Qed.

(** C6: on a processor that handles saves synchronously
    ([BaseSignalProcessor], [RealTimeSignalProcessor]) the save handler
    calls [registry.update] and then [registry.update_related], once each
    and on the instance it was given, and catches nothing: when [update]
    raises, the handler raises the same exception at once; otherwise its
    outcome, normal or raised, is that of [update_related].  Nothing is
    put on the task queue. *)
Theorem sync_handle_save_calls self sender instance w :
  __class__ self ∈ [BaseSignalProcessor; RealTimeSignalProcessor] →
  let out := handle_save registry self sender instance w in
  let u := registry_update registry instance (index w) in
  let v := registry_update_related registry instance u.2 in
  (∀ e, u.1 = Some e →
        out.1 = Raise e
        ∧ index_log out.2 = index_log w ++ [CallUpdate instance]
        ∧ index out.2 = u.2)
  ∧ (u.1 = None →
        index_log out.2 =
          index_log w ++ [CallUpdate instance; CallUpdateRelated instance]
        ∧ index out.2 = v.2
        ∧ out.1 = match v.1 with
                  | Some e => Raise e
                  | None => Ret tt
                  end)
  ∧ queue out.2 = queue w.
Proof.
  intros Hc out u v. subst out u v.
  rewrite (sync_handle_save_is_base _ _ _ Hc).
  pose proof (base_handle_save_eq self sender instance w) as E.
  destruct (registry_update registry instance (index w)) as [r1 s1].
  cbn [fst snd] in *.
  destruct (registry_update_related registry instance s1) as [r2 s2].
  rewrite E. simpl. split; [| split].
  - intros e ->. repeat split; reflexivity.
  - intros ->. repeat split; reflexivity.
  - destruct r1; reflexivity.
Qed.

(** ** Subscriptions *)

Lemma remove_first_add (r : Receiver) (l : list Receiver) :
  r ∉ l → remove_first r (add_receiver r l) = l.
Proof.
  intros Hr. unfold add_receiver. rewrite bool_decide_eq_false_2 by exact Hr.
  induction l as [| x l IH]; simpl.
  - rewrite bool_decide_eq_true_2; reflexivity.
  - apply not_elem_of_cons in Hr as [Hne Hr].
    rewrite bool_decide_eq_false_2 by congruence.
    rewrite IH by exact Hr. reflexivity.
Qed.

Lemma add_receiver_elem (r : Receiver) (l : list Receiver) :
  r ∈ add_receiver r l.
Proof.
  unfold add_receiver. case_bool_decide; [assumption |].
  apply elem_of_app. right. apply list_elem_of_singleton. reflexivity.
Qed.

Lemma mixin_bound_methods self :
  DjangoSignalsMixin ∈ bases (__class__ self) →
  ∃ k, resolve (__class__ self) "handle_save" = Some k
  ∧ bound_method self "handle_save" =
      Some (mkReceiver (oid self) k "handle_save")
  ∧ bound_method self "handle_delete" =
      Some (mkReceiver (oid self) BaseSignalProcessor "handle_delete")
  ∧ bound_method self "handle_m2m_changed" =
      Some (mkReceiver (oid self) BaseSignalProcessor "handle_m2m_changed")
  ∧ bound_method self "handle_pre_delete" =
      Some (mkReceiver (oid self) BaseSignalProcessor "handle_pre_delete")
  ∧ resolve (__class__ self) "setup" = Some DjangoSignalsMixin
  ∧ resolve (__class__ self) "teardown" = Some DjangoSignalsMixin.
Proof.
  intros H. destruct self as [n cls c]. simpl in H.
  destruct (mixin_base_cases cls H) as [-> | ->].
  - exists BaseSignalProcessor. repeat split; reflexivity.
  - exists CelerySignalProcessor. repeat split; reflexivity.
Qed.

Lemma mixin_setup_eq self w save del m2m pre :
  resolve (__class__ self) "setup" = Some DjangoSignalsMixin →
  bound_method self "handle_save" = Some save →
  bound_method self "handle_delete" = Some del →
  bound_method self "handle_m2m_changed" = Some m2m →
  bound_method self "handle_pre_delete" = Some pre →
  setup self w =
    (Ret tt,
     mkWorld (index w) (index_log w) (queue w)
       (mkSignals
          (add_receiver save (post_save_receivers (signals w)))
          (add_receiver del (post_delete_receivers (signals w)))
          (add_receiver m2m (m2m_changed_receivers (signals w)))
          (add_receiver pre (pre_delete_receivers (signals w))))
       (signal_log w ++
          [Connect post_save save; Connect post_delete del;
           Connect m2m_changed m2m; Connect pre_delete pre])
       (next_id w)).
Proof.
  intros Hs H1 H2 H3 H4.
  unfold setup. rewrite Hs.
  unfold DjangoSignalsMixin_setup, getattr_method, bind.
  rewrite H1, H2, H3, H4. unfold ret, connect. simpl.
  rewrite <- !app_assoc. reflexivity.
Qed.

Lemma mixin_teardown_eq self w save del m2m pre :
  resolve (__class__ self) "teardown" = Some DjangoSignalsMixin →
  bound_method self "handle_save" = Some save →
  bound_method self "handle_delete" = Some del →
  bound_method self "handle_m2m_changed" = Some m2m →
  bound_method self "handle_pre_delete" = Some pre →
  teardown self w =
    (Ret tt,
     mkWorld (index w) (index_log w) (queue w)
       (mkSignals
          (remove_first save (post_save_receivers (signals w)))
          (remove_first del (post_delete_receivers (signals w)))
          (remove_first m2m (m2m_changed_receivers (signals w)))
          (remove_first pre (pre_delete_receivers (signals w))))
       (signal_log w ++
          [Disconnect post_save save; Disconnect post_delete del;
           Disconnect m2m_changed m2m; Disconnect pre_delete pre])
       (next_id w)).
Proof.
  intros Hs H1 H2 H3 H4.
  unfold teardown. rewrite Hs.
  unfold DjangoSignalsMixin_teardown, getattr_method, bind.
  rewrite H1, H2, H3, H4. unfold ret, disconnect. simpl.
  rewrite <- !app_assoc. reflexivity.
Qed.

(** C7: on a class that has [DjangoSignalsMixin] among its bases, [setup]
    connects the bound methods [self.handle_save] to [post_save],
    [self.handle_delete] to [post_delete], [self.handle_m2m_changed] to
    [m2m_changed] and [self.handle_pre_delete] to [pre_delete], after which
    each is among the receivers of its signal; [teardown] disconnects the
    same four bound methods from the same four signals, and, run after
    [setup] on an object that had no receiver connected before, puts the
    receivers of every signal back as they were. *)
Theorem mixin_setup_teardown_symmetric self w :
  DjangoSignalsMixin ∈ bases (__class__ self) →
  ∃ save del m2m pre,
    bound_method self "handle_save" = Some save
    ∧ bound_method self "handle_delete" = Some del
    ∧ bound_method self "handle_m2m_changed" = Some m2m
    ∧ bound_method self "handle_pre_delete" = Some pre
    ∧ (setup self w).1 = Ret tt
    ∧ signal_log (setup self w).2 =
        signal_log w ++
          [Connect post_save save; Connect post_delete del;
           Connect m2m_changed m2m; Connect pre_delete pre]
    ∧ save ∈ receivers post_save (signals (setup self w).2)
    ∧ del ∈ receivers post_delete (signals (setup self w).2)
    ∧ m2m ∈ receivers m2m_changed (signals (setup self w).2)
    ∧ pre ∈ receivers pre_delete (signals (setup self w).2)
    ∧ (teardown self w).1 = Ret tt
    ∧ signal_log (teardown self w).2 =
        signal_log w ++
          [Disconnect post_save save; Disconnect post_delete del;
           Disconnect m2m_changed m2m; Disconnect pre_delete pre]
    ∧ ((∀ s r, r ∈ receivers s (signals w) → im_self r ≠ oid self) →
       signals ((setup self ;; teardown self) w).2 = signals w).
Proof.
  intros H.
  destruct (mixin_bound_methods self H) as (k & Hk & H1 & H2 & H3 & H4 & Hs & Ht).
  eexists _, _, _, _. repeat (split; [eassumption |]).
  rewrite (mixin_setup_eq self w _ _ _ _ Hs H1 H2 H3 H4).
  rewrite (mixin_teardown_eq self w _ _ _ _ Ht H1 H2 H3 H4).
  cbn [fst snd signals signal_log receivers post_save_receivers
         post_delete_receivers m2m_changed_receivers pre_delete_receivers].
  repeat (split; [first [reflexivity | apply add_receiver_elem] |]).
  intros Hfresh. unfold bind.
  rewrite (mixin_setup_eq self w _ _ _ _ Hs H1 H2 H3 H4).
  rewrite mixin_teardown_eq with (1 := Ht) (2 := H1) (3 := H2) (4 := H3)
    (5 := H4).
  cbn [fst snd signals post_save_receivers post_delete_receivers
         m2m_changed_receivers pre_delete_receivers].
  rewrite !remove_first_add.
  - destruct (signals w); reflexivity.
  - intros Hin. exact (Hfresh pre_delete _ Hin eq_refl).
  - intros Hin. exact (Hfresh m2m_changed _ Hin eq_refl).
  - intros Hin. exact (Hfresh post_delete _ Hin eq_refl).
  - intros Hin. exact (Hfresh post_save _ Hin eq_refl).
Qed.

(** ** Relation changes on the deferred processor *)

(** C8: on a [CelerySignalProcessor] the inherited relation-changed handler
    reaches the overridden save handler: for [post_add], [post_remove] and
    [post_clear] it is [CelerySignalProcessor.handle_save], which makes no
    index call and enqueues the two tasks (none when the concrete model is
    in the registry); for [pre_remove] and [pre_clear] it is the inherited
    pre-delete handler, which calls [registry.delete_related] inline and
    enqueues nothing. *)
Theorem celery_m2m_changed_deferred (n : nat) (c : option Conn) sender
  instance w :
  let self := mkProcessor n CelerySignalProcessor c in
  let model := concrete_model (_meta instance) in
  let message t :=
    mkTaskMessage t (pk instance) (app_label (_meta instance))
      (__name__ model) in
  (∀ action, action ∈ ["post_add"; "post_remove"; "post_clear"] →
     let out := handle_m2m_changed registry self sender instance action w in
     handle_m2m_changed registry self sender instance action =
       CelerySignalProcessor_handle_save registry self sender instance
     ∧ out.1 = Ret tt
     ∧ index out.2 = index w
     ∧ index_log out.2 = index_log w
     ∧ queue out.2 =
         queue w ++
           (if registry_contains registry model (index w) then []
            else [message registry_update_task_;
                  message registry_update_related_task_]))
  ∧ (∀ action, action ∈ ["pre_remove"; "pre_clear"] →
     let out := handle_m2m_changed registry self sender instance action w in
     handle_m2m_changed registry self sender instance action =
       BaseSignalProcessor_handle_pre_delete registry self sender instance
     ∧ out = delete_related registry instance w
     ∧ index_log out.2 = index_log w ++ [CallDeleteRelated instance]
     ∧ queue out.2 = queue w).
Proof.
  intros self model message. split; intros action Ha out; subst out.
  - assert (handle_m2m_changed registry self sender instance action =
            handle_save registry self sender instance) as E.
    { unfold handle_m2m_changed. simpl.
      unfold BaseSignalProcessor_handle_m2m_changed.
      rewrite (post_action_true _ Ha). reflexivity. }
    rewrite E. split; [reflexivity |].
    subst self. rewrite (celery_handle_save_eq n c sender instance w).
    repeat split; reflexivity.
  - assert (handle_m2m_changed registry self sender instance action =
            BaseSignalProcessor_handle_pre_delete registry self sender
              instance) as E.
    { unfold handle_m2m_changed. simpl.
      unfold BaseSignalProcessor_handle_m2m_changed.
      rewrite (pre_action_not_post _ Ha), bool_decide_eq_true_2 by exact Ha.
      reflexivity. }
    rewrite E. split; [reflexivity |].
    unfold BaseSignalProcessor_handle_pre_delete, delete_related,
      call_registry.
    destruct (registry_delete_related registry instance (index w)).
    repeat split; reflexivity.
Qed.

(** ** Construction *)

(** C9: constructing a processor of any of the three classes allocates the
    object, stores the given [connections] on it and runs [self.setup()]
    before returning it.  For the two classes with the signals mixin the
    four receivers are therefore connected once construction returns; for
    [BaseSignalProcessor] nothing is connected. *)
Theorem new_stores_and_sets_up (cls : Class) (connections0 : Conn) w :
  is_processor cls = true →
  let self := mkProcessor (next_id w) cls (Some connections0) in
  let w1 :=
    mkWorld (index w) (index_log w) (queue w) (signals w) (signal_log w)
      (S (next_id w)) in
  new cls connections0 w = (setup self ;; ret self) w1
  ∧ (new cls connections0 w).1 = Ret self
  ∧ connections self = Some connections0
  ∧ (new cls connections0 w).2 = (setup self w1).2
  ∧ (cls = BaseSignalProcessor → (new cls connections0 w).2 = w1)
  ∧ (DjangoSignalsMixin ∈ bases cls →
     ∃ save del m2m pre,
       bound_method self "handle_save" = Some save
       ∧ bound_method self "handle_delete" = Some del
       ∧ bound_method self "handle_m2m_changed" = Some m2m
       ∧ bound_method self "handle_pre_delete" = Some pre
       ∧ signal_log (new cls connections0 w).2 =
           signal_log w ++
             [Connect post_save save; Connect post_delete del;
              Connect m2m_changed m2m; Connect pre_delete pre]
       ∧ save ∈ receivers post_save (signals (new cls connections0 w).2)
       ∧ del ∈ receivers post_delete (signals (new cls connections0 w).2)
       ∧ m2m ∈ receivers m2m_changed (signals (new cls connections0 w).2)
       ∧ pre ∈ receivers pre_delete (signals (new cls connections0 w).2)).
Proof.
  intros Hc self w1.
  assert (new cls connections0 w = (setup self ;; ret self) w1) as E.
  { unfold new. fold w1.
    destruct (is_processor_cases cls Hc) as [-> | [-> | ->]]; reflexivity. }
  split; [exact E |].
  assert (DjangoSignalsMixin ∈ bases cls →
          ∃ save del m2m pre,
            bound_method self "handle_save" = Some save
            ∧ bound_method self "handle_delete" = Some del
            ∧ bound_method self "handle_m2m_changed" = Some m2m
            ∧ bound_method self "handle_pre_delete" = Some pre
            ∧ setup self w1 =
                (Ret tt,
                 mkWorld (index w) (index_log w) (queue w)
                   (mkSignals
                      (add_receiver save (post_save_receivers (signals w)))
                      (add_receiver del (post_delete_receivers (signals w)))
                      (add_receiver m2m (m2m_changed_receivers (signals w)))
                      (add_receiver pre (pre_delete_receivers (signals w))))
                   (signal_log w ++
                      [Connect post_save save; Connect post_delete del;
                       Connect m2m_changed m2m; Connect pre_delete pre])
                   (S (next_id w)))) as Hmix.
  { intros Hm.
    destruct (mixin_bound_methods self Hm)
      as (k & Hk & H1 & H2 & H3 & H4 & Hs & Ht).
    eexists _, _, _, _. repeat (split; [eassumption |]).
    rewrite (mixin_setup_eq self w1 _ _ _ _ Hs H1 H2 H3 H4). reflexivity. }
  rewrite E. unfold bind.
  destruct (is_processor_cases cls Hc) as [-> | [-> | ->]];
    [repeat split; try reflexivity; intros Hm; inversion Hm | |].
  all: destruct (Hmix ltac:(simpl; apply elem_of_cons; left; reflexivity))
         as (save & del & m2m & pre & H1 & H2 & H3 & H4 & Hset);
       rewrite Hset; repeat split; try reflexivity; [discriminate |];
       intros _; exists save, del, m2m, pre;
       repeat (split; [first [assumption | reflexivity
                             | apply add_receiver_elem] |]);
       apply add_receiver_elem.
Qed.

End Properties.

(** * The properties on the sample blog *)

Example celery_save_article :
  handle_save blog_registry celery0 Article article7 world0 =
    (Ret tt,
     mkWorld [] []
       [mkTaskMessage registry_update_task_ (PkInt 7) "blog" "Article";
        mkTaskMessage registry_update_related_task_ (PkInt 7) "blog"
          "Article"]
       no_signals [] 0).
Proof. reflexivity. Qed.

Example celery_save_tag :
  handle_save blog_registry celery0 Tag tag3 world0 = (Ret tt, world0).
Proof. reflexivity. Qed.

Example realtime_save_article :
  handle_save blog_registry realtime0 Article article7 world0 =
    (Ret tt,
     mkWorld [article7] [CallUpdate article7; CallUpdateRelated article7] []
       no_signals [] 0).
Proof. reflexivity. Qed.

(** A worker that runs the two messages enqueued for [article7] brings the
    index where the synchronous handler brings it. *)
Example worker_runs_queue :
  (run_task blog_registry blog_store
     (mkTaskMessage registry_update_task_ (PkInt 7) "blog" "Article") ;;
   run_task blog_registry blog_store
     (mkTaskMessage registry_update_related_task_ (PkInt 7) "blog" "Article"))
    world0 =
  handle_save blog_registry realtime0 Article article7 world0.
Proof. reflexivity. Qed.

Example delete_unindexed_raises :
  delete_ blog_registry article7 true world0 = (Raise NotFoundError,
    mkWorld [] [CallDelete article7 true] [] no_signals [] 0).
Proof. reflexivity. Qed.

Example mixin_alone_has_no_handlers :
  (setup (mkProcessor 0 DjangoSignalsMixin (Some ["default"])) world0).1 =
    Raise AttributeError.
Proof. reflexivity. Qed.

Lemma blog_registry_suppresses : suppresses_delete_errors blog_registry.
Proof. intros i s. simpl. case_bool_decide; reflexivity. Qed.

Lemma celery_delete_not_deferred_witness :
  resolve CelerySignalProcessor "handle_delete" =
  resolve RealTimeSignalProcessor "handle_delete".
Proof.
  destruct (celery_delete_not_deferred blog_registry 0 (Some ["default"])
              Article article7 world0) as [H _].
  apply H.
  - apply (bool_decide_unpack _). exact I.
  - discriminate.
Defined.

Lemma handle_m2m_changed_forwards_witness :
  is_processor (__class__ celery0) = true
  ∧ handle_m2m_changed blog_registry celery0 Article article7 "post_add" =
      handle_save blog_registry celery0 Article article7
  ∧ handle_m2m_changed blog_registry celery0 Article article7 "pre_clear" =
      handle_pre_delete blog_registry celery0 Article article7.
Proof.
  assert (is_processor (__class__ celery0) = true) as H by reflexivity.
  destruct (handle_m2m_changed_forwards blog_registry celery0 Article
              article7 H) as [Hpost Hpre].
  split; [exact H |].
  split; [apply Hpost | apply Hpre]; apply (bool_decide_unpack _); exact I.
Defined.

Lemma handle_m2m_changed_other_action_witness :
  handle_m2m_changed blog_registry realtime0 Article article7 "pre_add" world0
  = (Ret tt, world0).
Proof.
  apply handle_m2m_changed_other_action.
  - reflexivity.
  - apply (bool_decide_unpack _). exact I.
Defined.

Lemma handle_delete_suppresses_witness :
  (delete_ blog_registry article7 true world0).1 = Raise NotFoundError
  ∧ (handle_delete blog_registry realtime0 Article article7 world0).1 = Ret tt
  ∧ index_log (handle_delete blog_registry realtime0 Article article7
                 world0).2 = [CallDelete article7 false].
Proof.
  split; [reflexivity |].
  destruct (handle_delete_suppresses blog_registry realtime0 Article article7
              world0 eq_refl blog_registry_suppresses) as (_ & Hlog & Hret).
  split; [exact Hret | exact Hlog].
Defined.

Lemma deferred_task_outcomes_witness :
  registry_update_task blog_registry blog_store (PkInt 7) "blog" "Comment"
    world0 = (Ret tt, world0)
  ∧ registry_update_task blog_registry blog_store (PkInt 7) "blog" "Article"
      world0 = update blog_registry article7 world0
  ∧ registry_update_related_task blog_registry blog_store (PkInt 8) "blog"
      "Article" world0 = (Raise DoesNotExist, world0).
Proof.
  split; [| split].
  - destruct (deferred_task_outcomes blog_registry blog_store (PkInt 7) "blog"
                "Comment" world0) as (H & _ & _).
    apply (H LookupError); reflexivity.
  - destruct (deferred_task_outcomes blog_registry blog_store (PkInt 7) "blog"
                "Article" world0) as (_ & H & _).
    apply (H Article article7); reflexivity.
  - destruct (deferred_task_outcomes blog_registry blog_store (PkInt 8) "blog"
                "Article" world0) as (_ & _ & H).
    apply (H Article DoesNotExist); reflexivity.
Defined.

Lemma sync_handle_save_calls_witness :
  index_log (handle_save blog_registry realtime0 Article article7 world0).2 =
    [CallUpdate article7; CallUpdateRelated article7]
  ∧ (handle_save blog_registry realtime0 Article article7 world0).1 = Ret tt
  ∧ (handle_save down_registry base0 Article article7 world0).1 =
      Raise ConnectionError
  ∧ (handle_save flaky_registry realtime0 Article article7 world0).1 =
      Raise ConnectionError.
Proof.
  assert (__class__ realtime0
            ∈ [BaseSignalProcessor; RealTimeSignalProcessor]) as Hrt
    by (apply (bool_decide_unpack _); exact I).
  assert (__class__ base0
            ∈ [BaseSignalProcessor; RealTimeSignalProcessor]) as Hb
    by (apply (bool_decide_unpack _); exact I).
  destruct (sync_handle_save_calls blog_registry realtime0 Article article7
              world0 Hrt) as (_ & Hok & _).
  destruct (Hok eq_refl) as (Hlog & _ & Hret).
  destruct (sync_handle_save_calls down_registry base0 Article article7
              world0 Hb) as (Hraise & _ & _).
  destruct (Hraise ConnectionError eq_refl) as (Hdown & _ & _).
  destruct (sync_handle_save_calls flaky_registry realtime0 Article article7
              world0 Hrt) as (_ & Hok' & _).
  destruct (Hok' eq_refl) as (_ & _ & Hflaky).
  repeat split; assumption.
Defined.

Lemma mixin_setup_teardown_symmetric_witness :
  DjangoSignalsMixin ∈ bases (__class__ celery0)
  ∧ signal_log (setup celery0 world0).2 =
      [Connect post_save
         (mkReceiver 0 CelerySignalProcessor "handle_save");
       Connect post_delete
         (mkReceiver 0 BaseSignalProcessor "handle_delete");
       Connect m2m_changed
         (mkReceiver 0 BaseSignalProcessor "handle_m2m_changed");
       Connect pre_delete
         (mkReceiver 0 BaseSignalProcessor "handle_pre_delete")]
  ∧ signals ((setup celery0 ;; teardown celery0) world0).2 = signals world0.
Proof.
  assert (DjangoSignalsMixin ∈ bases (__class__ celery0)) as Hm
    by (apply (bool_decide_unpack _); exact I).
  destruct (mixin_setup_teardown_symmetric celery0 world0 Hm)
    as (save & del & m2m & pre & H1 & H2 & H3 & H4 & _ & Hlog & _ & _ & _ & _
        & _ & _ & Hsym).
  injection H1 as <-. injection H2 as <-. injection H3 as <-.
  injection H4 as <-.
  split; [exact Hm |]. split; [exact Hlog |].
  apply Hsym. intros s r Hr. destruct s; inversion Hr.
Defined.

Lemma celery_m2m_changed_deferred_witness :
  queue (handle_m2m_changed blog_registry celery0 Article article7
           "post_clear" world0).2 =
    [mkTaskMessage registry_update_task_ (PkInt 7) "blog" "Article";
     mkTaskMessage registry_update_related_task_ (PkInt 7) "blog" "Article"]
  ∧ index_log (handle_m2m_changed blog_registry celery0 Article article7
                 "post_clear" world0).2 = []
  ∧ index_log (handle_m2m_changed blog_registry celery0 Article article7
                 "pre_clear" world0).2 = [CallDeleteRelated article7]
  ∧ queue (handle_m2m_changed blog_registry celery0 Article article7
             "pre_clear" world0).2 = [].
Proof.
  destruct (celery_m2m_changed_deferred blog_registry 0 (Some ["default"])
              Article article7 world0) as [Hpost Hpre].
  destruct (Hpost "post_clear" ltac:(apply (bool_decide_unpack _); exact I))
    as (_ & _ & _ & Hlog & Hq).
  destruct (Hpre "pre_clear" ltac:(apply (bool_decide_unpack _); exact I))
    as (_ & _ & Hlog' & Hq').
  repeat split; assumption.
Defined.

Lemma new_stores_and_sets_up_witness :
  is_processor CelerySignalProcessor = true
  ∧ (new CelerySignalProcessor ["default"] world0).1 = Ret celery0
  ∧ signal_log (new CelerySignalProcessor ["default"] world0).2 =
      [Connect post_save
         (mkReceiver 0 CelerySignalProcessor "handle_save");
       Connect post_delete
         (mkReceiver 0 BaseSignalProcessor "handle_delete");
       Connect m2m_changed
         (mkReceiver 0 BaseSignalProcessor "handle_m2m_changed");
       Connect pre_delete
         (mkReceiver 0 BaseSignalProcessor "handle_pre_delete")].
Proof.
  assert (is_processor CelerySignalProcessor = true) as Hc by reflexivity.
  destruct (new_stores_and_sets_up CelerySignalProcessor ["default"] world0 Hc)
    as (_ & Hret & _ & _ & _ & Hmix).
  destruct (Hmix ltac:(apply (bool_decide_unpack _); exact I))
    as (save & del & m2m & pre & H1 & H2 & H3 & H4 & Hlog & _).
  injection H1 as <-. injection H2 as <-. injection H3 as <-.
  injection H4 as <-.
  split; [exact Hc |]. split; [exact Hret | exact Hlog].
Defined.

(** * Further properties *)

Section Frames.

Context {St : Type} {Conn : Type}.
Variable registry : Registry St.
Variable store : Store.

Implicit Types (self : Processor Conn) (sender : ModelClass)
  (instance : Instance) (w : World St) (action : string).

(** ** What the handlers leave alone *)

Lemma call_registry_frame (c : IndexCall) (op : St → option exn * St) w :
  subscriptions_untouched w (call_registry c op w).2
  ∧ queue (call_registry c op w).2 = queue w.
Proof.
  unfold call_registry, subscriptions_untouched.
  destruct (op (index w)) as [r s]. repeat split; reflexivity.
Qed.

Lemma bind_subscriptions_untouched {A B} (m : M St A) (k : A → M St B) w :
  subscriptions_untouched w (m w).2 →
  (∀ a w', subscriptions_untouched w' (k a w').2) →
  subscriptions_untouched w (bind m k w).2.
Proof.
  intros Hm Hk. unfold bind. destruct (m w) as [[a | e] w1]; simpl in *.
  - specialize (Hk a w1). unfold subscriptions_untouched in *.
    destruct Hm as (H1 & H2 & H3), Hk as (K1 & K2 & K3).
    repeat split; congruence.
  - exact Hm.
Qed.

Lemma base_handle_save_subscriptions self sender instance w :
  subscriptions_untouched w
    (BaseSignalProcessor_handle_save registry self sender instance w).2.
Proof.
  unfold BaseSignalProcessor_handle_save.
  apply bind_subscriptions_untouched.
  - apply call_registry_frame.
  - intros _ w'. apply call_registry_frame.
Qed.

Lemma handle_save_subscriptions self sender instance w :
  is_processor (__class__ self) = true →
  subscriptions_untouched w (handle_save registry self sender instance w).2.
Proof.
  intros Hc. destruct self as [n cls c]. simpl in Hc.
  destruct (is_processor_cases cls Hc) as [-> | [-> | ->]].
  - apply base_handle_save_subscriptions.
  - apply base_handle_save_subscriptions.
  - rewrite celery_handle_save_eq. repeat split; reflexivity.
Qed.

Lemma handle_pre_delete_is_delete_related self sender instance :
  is_processor (__class__ self) = true →
  handle_pre_delete registry self sender instance =
  delete_related registry instance.
Proof.
  intros Hc. unfold handle_pre_delete.
  rewrite (resolve_handle_pre_delete _ Hc). reflexivity.
Qed.

(** X1: no handler touches the subscriptions.  On every processor class
    the save, delete, pre-delete and relation-changed handlers (the last
    for any action) leave the receivers of every signal, the log of
    connect/disconnect calls and the allocation counter as they were,
    whether they return or raise. *)
Theorem handlers_leave_subscriptions self sender instance action w :
  is_processor (__class__ self) = true →
  subscriptions_untouched w (handle_save registry self sender instance w).2
  ∧ subscriptions_untouched w
      (handle_delete registry self sender instance w).2
  ∧ subscriptions_untouched w
      (handle_pre_delete registry self sender instance w).2
  ∧ subscriptions_untouched w
      (handle_m2m_changed registry self sender instance action w).2.
Proof.
  intros Hc.
  assert (subscriptions_untouched w
            (handle_pre_delete registry self sender instance w).2) as Hpre.
  { rewrite (handle_pre_delete_is_delete_related _ _ _ Hc).
    apply call_registry_frame. }
  split; [apply handle_save_subscriptions; exact Hc |].
  split; [| split; [exact Hpre |]].
  - rewrite (handle_delete_is_delete _ _ _ _ Hc). apply call_registry_frame.
  - unfold handle_m2m_changed. rewrite (resolve_handle_m2m_changed _ Hc).
    unfold BaseSignalProcessor_handle_m2m_changed.
    repeat case_bool_decide.
    + apply handle_save_subscriptions; exact Hc.
    + exact Hpre.
    + repeat split; reflexivity.
Qed.

(** ** What the subscription code leaves alone *)

(** X2: [setup], [teardown] and construction never reach the index or the
    task queue: on an object of any of the four classes, and whether they
    return or raise, the index state, the log of registry calls and the
    queue are as before. *)
Theorem subscription_code_leaves_index self (cls : Class)
  (connections0 : Conn) w :
  index_and_queue_untouched w (setup self w).2
  ∧ index_and_queue_untouched w (teardown self w).2
  ∧ index_and_queue_untouched w (new cls connections0 w).2.
Proof.
  unfold index_and_queue_untouched.
  destruct self as [n k c].
  split; [| split].
  - destruct k; repeat split; reflexivity.
  - destruct k; repeat split; reflexivity.
  - destruct cls; repeat split; reflexivity.
Qed.

(** ** The synchronous processors *)

Lemma sync_is_processor (cls : Class) :
  cls ∈ [BaseSignalProcessor; RealTimeSignalProcessor] →
  is_processor cls = true.
Proof.
  intros H. repeat (apply elem_of_cons in H as [-> | H]; [reflexivity |]).
  inversion H.
Qed.

Lemma base_handle_save_queue self sender instance w :
  queue (BaseSignalProcessor_handle_save registry self sender instance w).2 =
  queue w.
Proof.
  pose proof (base_handle_save_eq registry self sender instance w) as E.
  destruct (registry_update registry instance (index w)) as [r1 s1].
  destruct (registry_update_related registry instance s1) as [r2 s2].
  rewrite E. destruct r1; reflexivity.
Qed.

(** X3: on a synchronous processor ([BaseSignalProcessor],
    [RealTimeSignalProcessor]) a relation change with action [post_add],
    [post_remove] or [post_clear] is indexed inline: the handler is the
    base save handler, and when [registry.update] returns normally the
    registry has been called with [update] and then [update_related] on the
    instance before the handler returns. *)
Theorem sync_m2m_changed_inline self sender instance action w :
  __class__ self ∈ [BaseSignalProcessor; RealTimeSignalProcessor] →
  action ∈ ["post_add"; "post_remove"; "post_clear"] →
  let out := handle_m2m_changed registry self sender instance action w in
  out = BaseSignalProcessor_handle_save registry self sender instance w
  ∧ ((registry_update registry instance (index w)).1 = None →
     index_log out.2 =
       index_log w ++ [CallUpdate instance; CallUpdateRelated instance])
  ∧ (∀ e, (registry_update registry instance (index w)).1 = Some e →
     out.1 = Raise e
     ∧ index_log out.2 = index_log w ++ [CallUpdate instance]).
Proof.
  intros Hc Ha out. subst out.
  unfold handle_m2m_changed.
  rewrite (resolve_handle_m2m_changed _ (sync_is_processor _ Hc)).
  unfold BaseSignalProcessor_handle_m2m_changed.
  rewrite (post_action_true _ Ha).
  rewrite (sync_handle_save_is_base registry _ _ _ Hc).
  split; [reflexivity |].
  pose proof (base_handle_save_eq registry self sender instance w) as E.
  destruct (registry_update registry instance (index w)) as [r1 s1].
  destruct (registry_update_related registry instance s1) as [r2 s2].
  rewrite E. simpl. split.
  - intros ->. reflexivity.
  - intros e ->. split; reflexivity.
Qed.

(** X4: a synchronous processor never enqueues: each of its four handlers,
    the relation-changed one for any action, leaves the task queue as it
    was, whether it returns or raises. *)
Theorem sync_never_enqueues self sender instance action w :
  __class__ self ∈ [BaseSignalProcessor; RealTimeSignalProcessor] →
  queue (handle_save registry self sender instance w).2 = queue w
  ∧ queue (handle_delete registry self sender instance w).2 = queue w
  ∧ queue (handle_pre_delete registry self sender instance w).2 = queue w
  ∧ queue (handle_m2m_changed registry self sender instance action w).2 =
      queue w.
Proof.
  intros Hc. pose proof (sync_is_processor _ Hc) as Hp.
  assert (queue (handle_save registry self sender instance w).2 = queue w)
    as Hsave.
  { rewrite (sync_handle_save_is_base registry _ _ _ Hc).
    apply base_handle_save_queue. }
  assert (queue (handle_pre_delete registry self sender instance w).2 =
          queue w) as Hpre.
  { rewrite (handle_pre_delete_is_delete_related _ _ _ Hp).
    apply call_registry_frame. }
  split; [exact Hsave |]. split; [| split; [exact Hpre |]].
  - rewrite (handle_delete_is_delete _ _ _ _ Hp). apply call_registry_frame.
  - unfold handle_m2m_changed. rewrite (resolve_handle_m2m_changed _ Hp).
    unfold BaseSignalProcessor_handle_m2m_changed.
    repeat case_bool_decide; [exact Hsave | exact Hpre | reflexivity].
Qed.

(** X5: on every processor class the pre-delete handler is one call of
    [registry.delete_related] on the instance: the call is logged once, the
    index state is the one the registry leaves, the handler raises exactly
    when the registry does, with the same exception, and nothing is
    enqueued. *)
Theorem handle_pre_delete_calls self sender instance w :
  is_processor (__class__ self) = true →
  let out := handle_pre_delete registry self sender instance w in
  let d := registry_delete_related registry instance (index w) in
  index_log out.2 = index_log w ++ [CallDeleteRelated instance]
  ∧ index out.2 = d.2
  ∧ out.1 = match d.1 with
            | Some e => Raise e
            | None => Ret tt
            end
  ∧ queue out.2 = queue w.
Proof.
  intros Hc out d. subst out d.
  rewrite (handle_pre_delete_is_delete_related _ _ _ Hc).
  unfold delete_related, call_registry.
  destruct (registry_delete_related registry instance (index w)) as [r s].
  repeat split; reflexivity.
Qed.

(** ** From the save handler to the worker *)


(** X7: a save whose reference no longer resolves is dropped in silence.
    When [apps.get_model] raises a [LookupError] for the app label and
    model name of the instance, each of the two messages the deferred save
    handler enqueues runs to a normal return without touching anything:
    no registry call is made and no error reaches the queue. *)
Theorem deferred_save_unresolved_dropped (n : nat) (c : option Conn) sender
  instance (e : exn) w :
  let self := mkProcessor n CelerySignalProcessor c in
  registry_contains registry (concrete_model (_meta instance)) (index w)
    = false →
  apps_get_model store (app_label (_meta instance))
    (__name__ (concrete_model (_meta instance))) = inl e →
  isinstance e "LookupError" = true →
  ∃ m1 m2,
    queue (handle_save registry self sender instance w).2 =
      queue w ++ [m1; m2]
    ∧ ∀ w', run_task registry store m1 w' = (Ret tt, w')
            ∧ run_task registry store m2 w' = (Ret tt, w').
Proof.
  intros self Hreg Hmodel He. subst self.
  rewrite celery_handle_save_eq, Hreg.
  eexists _, _. split; [reflexivity |].
  intros w'. unfold run_task, registry_update_task,
    registry_update_related_task. simpl.
  rewrite Hmodel, He. split; reflexivity.
Qed.

(** X8: only [LookupError] is caught around [apps.get_model].  Any other
    exception it raises leaves both tasks as that same exception, before
    anything is fetched or indexed. *)
Theorem task_other_error_propagates (pk0 : PkValue)
  (app_label0 model_name : string) (e : exn) w :
  apps_get_model store app_label0 model_name = inl e →
  isinstance e "LookupError" = false →
  registry_update_task registry store pk0 app_label0 model_name w =
    (Raise e, w)
  ∧ registry_update_related_task registry store pk0 app_label0 model_name w =
      (Raise e, w).
Proof.
  intros Hmodel He.
  unfold registry_update_task, registry_update_related_task.
  rewrite Hmodel, He. split; reflexivity.
Qed.

(** ** Subscriptions, again *)

Lemma add_receiver_fresh (r : Receiver) (l : list Receiver) :
  r ∉ l → add_receiver r l = l ++ [r].
Proof.
  intros H. unfold add_receiver. rewrite bool_decide_eq_false_2 by exact H.
  reflexivity.
Qed.

Lemma add_receiver_idem (r : Receiver) (l : list Receiver) :
  add_receiver r (add_receiver r l) = add_receiver r l.
Proof.
  unfold add_receiver at 1.
  rewrite bool_decide_eq_true_2 by apply add_receiver_elem. reflexivity.
Qed.

Lemma elem_of_add_receiver (r x : Receiver) (l : list Receiver) :
  r ∈ add_receiver x l ↔ r = x ∨ r ∈ l.
Proof.
  unfold add_receiver. case_bool_decide as Hx.
  - split; [auto |]. intros [-> | H]; assumption.
  - rewrite elem_of_app, list_elem_of_singleton. tauto.
Qed.

Lemma remove_first_absent (r : Receiver) (l : list Receiver) :
  r ∉ l → remove_first r l = l.
Proof.
  induction l as [| x l IH]; intros H; simpl; [reflexivity |].
  apply not_elem_of_cons in H as [Hne H].
  rewrite bool_decide_eq_false_2 by congruence.
  rewrite IH by exact H. reflexivity.
Qed.

Lemma elem_of_remove_first_ne (r x : Receiver) (l : list Receiver) :
  r ≠ x → r ∈ remove_first x l ↔ r ∈ l.
Proof.
  intros Hne. induction l as [| y l IH]; simpl; [reflexivity |].
  case_bool_decide as Hy.
  - subst y. rewrite elem_of_cons. tauto.
  - rewrite !elem_of_cons, IH. reflexivity.
Qed.

Lemma bound_method_self self (name : string) (r : Receiver) :
  bound_method self name = Some r → im_self r = oid self.
Proof.
  unfold bound_method. destruct (resolve (__class__ self) name); intros H.
  - injection H as <-. reflexivity.
  - discriminate H.
Qed.

(** X9: [setup] run a second time on the same object connects nothing
    new: the four [connect] calls are made again, and the receivers of
    every signal are those left by the first [setup]. *)
Theorem setup_twice_connects_once self w :
  DjangoSignalsMixin ∈ bases (__class__ self) →
  ((setup self ;; setup self) w).1 = Ret tt
  ∧ signals ((setup self ;; setup self) w).2 = signals (setup self w).2
  ∧ length (signal_log ((setup self ;; setup self) w).2) =
      length (signal_log w) + 8.
Proof.
  intros H.
  destruct (mixin_bound_methods self H)
    as (k & Hk & H1 & H2 & H3 & H4 & Hs & Ht).
  unfold bind.
  rewrite (mixin_setup_eq self w _ _ _ _ Hs H1 H2 H3 H4).
  rewrite mixin_setup_eq with (1 := Hs) (2 := H1) (3 := H2) (4 := H3)
    (5 := H4).
  cbn [fst snd signals signal_log post_save_receivers post_delete_receivers
         m2m_changed_receivers pre_delete_receivers].
  rewrite !add_receiver_idem, !length_app. simpl.
  split; [reflexivity |]. split; [reflexivity | lia].
Qed.

(** X10: [teardown] is safe without [setup].  On every processor class,
    when no receiver bound to the object is connected, [teardown] returns
    normally and leaves the receivers of every signal as they were. *)
Theorem teardown_without_setup self w :
  is_processor (__class__ self) = true →
  (∀ s r, r ∈ receivers s (signals w) → im_self r ≠ oid self) →
  (teardown self w).1 = Ret tt
  ∧ signals (teardown self w).2 = signals w.
Proof.
  intros Hc Hfree. destruct self as [n cls c]. simpl in Hc.
  destruct (is_processor_cases cls Hc) as [-> | [-> | ->]];
    [split; reflexivity | |].
  all: match goal with
       | |- context [teardown ?p ?v] =>
           destruct (mixin_bound_methods p
                       ltac:(simpl; apply elem_of_cons; left; reflexivity))
             as (k & Hk & H1 & H2 & H3 & H4 & Hs & Ht);
           rewrite (mixin_teardown_eq p v _ _ _ _ Ht H1 H2 H3 H4)
       end;
       cbn [fst snd signals];
       rewrite !remove_first_absent;
       [destruct (signals w); split; reflexivity | | | |];
       intros Hin.
  all: first [exact (Hfree pre_delete _ Hin eq_refl)
             | exact (Hfree m2m_changed _ Hin eq_refl)
             | exact (Hfree post_delete _ Hin eq_refl)
             | exact (Hfree post_save _ Hin eq_refl)].
Qed.

(** X11: [setup] and [teardown] of one object leave the subscriptions of
    every other object alone: a receiver bound to another object is
    connected to a signal afterwards exactly when it was before.  This
    holds for an object of any class. *)
Theorem other_receivers_untouched self (s : SignalName) (r : Receiver) w :
  im_self r ≠ oid self →
  (r ∈ receivers s (signals (setup self w).2) ↔ r ∈ receivers s (signals w))
  ∧ (r ∈ receivers s (signals (teardown self w).2)
     ↔ r ∈ receivers s (signals w)).
Proof.
  intros Hr.
  assert (∀ name x, bound_method self name = Some x → r ≠ x) as Hne.
  { intros name x Hx ->. apply Hr. exact (bound_method_self _ _ _ Hx). }
  destruct self as [n cls c]. destruct cls.
  1, 2: split; reflexivity.
  all: match goal with
       | |- context [setup ?p ?v] =>
           destruct (mixin_bound_methods p
                       ltac:(simpl; apply elem_of_cons; left; reflexivity))
             as (k & Hk & H1 & H2 & H3 & H4 & Hs & Ht);
           rewrite (mixin_setup_eq p v _ _ _ _ Hs H1 H2 H3 H4);
           rewrite (mixin_teardown_eq p v _ _ _ _ Ht H1 H2 H3 H4)
       end;
       pose proof (Hne _ _ H1); pose proof (Hne _ _ H2);
       pose proof (Hne _ _ H3); pose proof (Hne _ _ H4);
       split; destruct s; cbn [fst snd signals receivers post_save_receivers
         post_delete_receivers m2m_changed_receivers pre_delete_receivers];
       first [rewrite elem_of_add_receiver; tauto
             | apply elem_of_remove_first_ne; assumption].
Qed.

(** [DjangoSignalsMixin] on its own has no handler to connect: [setup] and
    [teardown] raise [AttributeError] at the first [self.handle_save]. *)
Lemma mixin_alone_raises (n : nat) (c : option Conn) w :
  let self := mkProcessor n DjangoSignalsMixin c in
  setup self w = (Raise AttributeError, w)
  ∧ teardown self w = (Raise AttributeError, w).
Proof. split; reflexivity. Qed.

(** ** Construction, again *)

Lemma new_mixin_eq (cls : Class) (connections0 : Conn) w :
  DjangoSignalsMixin ∈ bases cls →
  let self := mkProcessor (next_id w) cls (Some connections0) in
  ∃ save del m2m pre,
    bound_method self "handle_save" = Some save
    ∧ bound_method self "handle_delete" = Some del
    ∧ bound_method self "handle_m2m_changed" = Some m2m
    ∧ bound_method self "handle_pre_delete" = Some pre
    ∧ resolve cls "teardown" = Some DjangoSignalsMixin
    ∧ new cls connections0 w =
        (Ret self,
         mkWorld (index w) (index_log w) (queue w)
           (mkSignals
              (add_receiver save (post_save_receivers (signals w)))
              (add_receiver del (post_delete_receivers (signals w)))
              (add_receiver m2m (m2m_changed_receivers (signals w)))
              (add_receiver pre (pre_delete_receivers (signals w))))
           (signal_log w ++
              [Connect post_save save; Connect post_delete del;
               Connect m2m_changed m2m; Connect pre_delete pre])
           (S (next_id w))).
Proof.
  intros Hm self.
  destruct (mixin_bound_methods self Hm)
    as (k & Hk & H1 & H2 & H3 & H4 & Hs & Ht).
  eexists _, _, _, _. repeat (split; [eassumption |]).
  assert (resolve cls "__init__" = Some BaseSignalProcessor) as Hinit
    by (destruct (mixin_base_cases cls Hm) as [-> | ->]; reflexivity).
  unfold new. rewrite Hinit.
  unfold BaseSignalProcessor___init__, bind. cbn [oid __class__].
  fold self.
  rewrite mixin_setup_eq with (1 := Hs) (2 := H1) (3 := H2) (4 := H3)
    (5 := H4).
  reflexivity.
Qed.

(** X12: a processor torn down right after it is built leaves no trace in
    the subscriptions.  On every processor class, when no receiver is bound
    to the identity about to be allocated, constructing the processor and
    calling [teardown] on it returns normally and leaves the receivers of
    every signal as they were before the construction. *)
Theorem new_then_teardown (cls : Class) (connections0 : Conn) w :
  is_processor cls = true →
  (∀ s r, r ∈ receivers s (signals w) → im_self r ≠ next_id w) →
  ((self <- new cls connections0 ;; teardown self) w).1 = Ret tt
  ∧ signals ((self <- new cls connections0 ;; teardown self) w).2 =
      signals w.
Proof.
  intros Hc Hfree.
  destruct (is_processor_cases cls Hc) as [-> | [-> | ->]];
    [split; reflexivity | |].
  all: match goal with
       | |- context [bind (new ?k ?c0) _ ?v] =>
           destruct (new_mixin_eq k c0 v
                       ltac:(simpl; apply elem_of_cons; left; reflexivity))
             as (save & del & m2m & pre & H1 & H2 & H3 & H4 & Ht & Hnew)
       end;
       unfold bind; rewrite Hnew;
       rewrite mixin_teardown_eq with (1 := Ht) (2 := H1) (3 := H2)
         (4 := H3) (5 := H4);
       cbn [fst snd signals post_save_receivers post_delete_receivers
              m2m_changed_receivers pre_delete_receivers];
       rewrite !remove_first_add;
       [destruct (signals w); split; reflexivity | | | |];
       intros Hin.
  all: first
         [exact (Hfree pre_delete _ Hin (bound_method_self _ _ _ H4))
         | exact (Hfree m2m_changed _ Hin (bound_method_self _ _ _ H3))
         | exact (Hfree post_delete _ Hin (bound_method_self _ _ _ H2))
         | exact (Hfree post_save _ Hin (bound_method_self _ _ _ H1))].
Qed.

(** X13: nothing stops a second processor from subscribing beside the
    first.  Two constructions of a class with the signals mixin return
    objects with different identities, and every signal ends with two more
    receivers than it had, one bound to each object, provided the receivers
    already connected are bound to identities allocated earlier. *)
Theorem two_processors_both_subscribed (cls : Class) (c1 c2 : Conn) w :
  DjangoSignalsMixin ∈ bases cls →
  (∀ s r, r ∈ receivers s (signals w) → im_self r < next_id w) →
  ∃ p1 p2 w2,
    (p1 <- new cls c1 ;; p2 <- new cls c2 ;; ret (p1, p2)) w =
      (Ret (p1, p2), w2)
    ∧ oid p1 ≠ oid p2
    ∧ ∀ s, ∃ r1 r2,
        receivers s (signals w2) = receivers s (signals w) ++ [r1; r2]
        ∧ im_self r1 = oid p1
        ∧ im_self r2 = oid p2.
Proof.
  intros Hm Hwf.
  destruct (new_mixin_eq cls c1 w Hm)
    as (s1 & d1 & m1 & q1 & A1 & A2 & A3 & A4 & _ & Hnew1).
  unfold bind at 1. rewrite Hnew1.
  match goal with
  | |- context [bind (new cls c2) _ ?v] =>
      destruct (new_mixin_eq cls c2 v Hm)
        as (s2 & d2 & m2 & q2 & B1 & B2 & B3 & B4 & _ & Hnew2)
  end.
  unfold bind. rewrite Hnew2. unfold ret.
  eexists _, _, _. split; [reflexivity |].
  cbn [oid next_id signals post_save_receivers post_delete_receivers
         m2m_changed_receivers pre_delete_receivers] in *.
  split; [lia |].
  apply bound_method_self in A1, A2, A3, A4, B1, B2, B3, B4.
  cbn [oid] in *.
  assert (∀ s r, im_self r = next_id w → r ∉ receivers s (signals w))
    as Hfresh1.
  { intros s r Hr Hin. specialize (Hwf s r Hin). lia. }
  assert (∀ s r x, im_self r = S (next_id w) → im_self x = next_id w →
                   r ∉ receivers s (signals w) ++ [x]) as Hfresh2.
  { intros s r x Hr Hx Hin. apply elem_of_app in Hin as [Hin | Hin].
    - specialize (Hwf s r Hin). lia.
    - apply list_elem_of_singleton in Hin. subst x. lia. }
  intros s. destruct s; cbn [receivers post_save_receivers
    post_delete_receivers m2m_changed_receivers pre_delete_receivers].
  - exists s1, s2.
    rewrite (add_receiver_fresh s1) by (apply (Hfresh1 post_save); exact A1).
    rewrite add_receiver_fresh
      by (apply (Hfresh2 post_save); [exact B1 | exact A1]).
    rewrite <- app_assoc. repeat split; assumption.
  - exists d1, d2.
    rewrite (add_receiver_fresh d1) by (apply (Hfresh1 post_delete); exact A2).
    rewrite add_receiver_fresh
      by (apply (Hfresh2 post_delete); [exact B2 | exact A2]).
    rewrite <- app_assoc. repeat split; assumption.
  - exists m1, m2.
    rewrite (add_receiver_fresh m1) by (apply (Hfresh1 m2m_changed); exact A3).
    rewrite add_receiver_fresh
      by (apply (Hfresh2 m2m_changed); [exact B3 | exact A3]).
    rewrite <- app_assoc. repeat split; assumption.
  - exists q1, q2.
    rewrite (add_receiver_fresh q1) by (apply (Hfresh1 pre_delete); exact A4).
    rewrite add_receiver_fresh
      by (apply (Hfresh2 pre_delete); [exact B4 | exact A4]).
    rewrite <- app_assoc. repeat split; assumption.
Qed.

(** ** [RealTimeSignalProcessor] *)

(** X14: [RealTimeSignalProcessor] adds the subscriptions and nothing else:
    each of its four handlers is the handler of [BaseSignalProcessor], and
    what a synchronous handler does depends neither on the identity of the
    processor nor on its [connections]. *)
Theorem sync_handlers_agree self self' sender instance action :
  __class__ self ∈ [BaseSignalProcessor; RealTimeSignalProcessor] →
  __class__ self' ∈ [BaseSignalProcessor; RealTimeSignalProcessor] →
  handle_save registry self sender instance =
    handle_save registry self' sender instance
  ∧ handle_delete registry self sender instance =
      handle_delete registry self' sender instance
  ∧ handle_pre_delete registry self sender instance =
      handle_pre_delete registry self' sender instance
  ∧ handle_m2m_changed registry self sender instance action =
      handle_m2m_changed registry self' sender instance action.
Proof.
  intros Hc Hc'.
  pose proof (sync_is_processor _ Hc) as Hp.
  pose proof (sync_is_processor _ Hc') as Hp'.
  assert (handle_save registry self sender instance =
          handle_save registry self' sender instance) as Hsave.
  { rewrite !(sync_handle_save_is_base registry) by assumption.
    reflexivity. }
  assert (handle_pre_delete registry self sender instance =
          handle_pre_delete registry self' sender instance) as Hpre.
  { rewrite !handle_pre_delete_is_delete_related by assumption.
    reflexivity. }
  split; [exact Hsave |]. split; [| split; [exact Hpre |]].
  - rewrite !(handle_delete_is_delete registry) by assumption. reflexivity.
  - unfold handle_m2m_changed.
    rewrite !resolve_handle_m2m_changed by assumption.
    unfold BaseSignalProcessor_handle_m2m_changed.
    rewrite Hsave, Hpre. reflexivity.
Qed.

End Frames.

(** * The further properties on the sample blog *)

Ltac receivers_of_busy :=
  let s := fresh "s" in
  let r := fresh "r" in
  let H := fresh "H" in
  intros s r H; destruct s; simpl in H;
  [apply list_elem_of_singleton in H; subst r; simpl; lia
  | inversion H | inversion H | inversion H].

Lemma handlers_leave_subscriptions_witness :
  subscriptions_untouched world_busy
    (handle_m2m_changed blog_registry celery0 Article article7 "post_add"
       world_busy).2
  ∧ subscriptions_untouched world_busy
      (handle_delete down_registry realtime0 Article article7 world_busy).2.
Proof.
  destruct (handlers_leave_subscriptions blog_registry celery0 Article
              article7 "post_add" world_busy eq_refl) as (_ & _ & _ & H1).
  destruct (handlers_leave_subscriptions down_registry realtime0 Article
              article7 "post_add" world_busy eq_refl) as (_ & H2 & _).
  split; assumption.
Defined.

Lemma sync_m2m_changed_inline_witness :
  index_log (handle_m2m_changed blog_registry realtime0 Article article7
               "post_remove" world0).2 =
    [CallUpdate article7; CallUpdateRelated article7]
  ∧ (handle_m2m_changed down_registry realtime0 Article article7
       "post_remove" world0).1 = Raise ConnectionError.
Proof.
  assert (__class__ realtime0
            ∈ [BaseSignalProcessor; RealTimeSignalProcessor]) as Hrt
    by (apply (bool_decide_unpack _); exact I).
  assert ("post_remove" ∈ ["post_add"; "post_remove"; "post_clear"]) as Ha
    by (apply (bool_decide_unpack _); exact I).
  destruct (sync_m2m_changed_inline blog_registry realtime0 Article article7
              "post_remove" world0 Hrt Ha) as (_ & Hok & _).
  destruct (sync_m2m_changed_inline down_registry realtime0 Article article7
              "post_remove" world0 Hrt Ha) as (_ & _ & Hraise).
  split; [exact (Hok eq_refl) |].
  destruct (Hraise ConnectionError eq_refl) as [H _]. exact H.
Defined.

Lemma sync_never_enqueues_witness :
  queue (handle_m2m_changed blog_registry realtime0 Article article7
           "post_add" world0).2 = []
  ∧ queue (handle_save down_registry base0 Article article7 world0).2 = [].
Proof.
  assert (__class__ realtime0
            ∈ [BaseSignalProcessor; RealTimeSignalProcessor]) as Hrt
    by (apply (bool_decide_unpack _); exact I).
  assert (__class__ base0
            ∈ [BaseSignalProcessor; RealTimeSignalProcessor]) as Hb
    by (apply (bool_decide_unpack _); exact I).
  destruct (sync_never_enqueues blog_registry realtime0 Article article7
              "post_add" world0 Hrt) as (_ & _ & _ & H1).
  destruct (sync_never_enqueues down_registry base0 Article article7
              "post_add" world0 Hb) as (H2 & _).
  split; assumption.
Defined.

Lemma handle_pre_delete_calls_witness :
  index_log (handle_pre_delete blog_registry celery0 Article article7
               world0).2 = [CallDeleteRelated article7]
  ∧ (handle_pre_delete down_registry realtime0 Article article7 world0).1 =
      Raise ConnectionError.
Proof.
  destruct (handle_pre_delete_calls blog_registry celery0 Article article7
              world0 eq_refl) as (H1 & _).
  destruct (handle_pre_delete_calls down_registry realtime0 Article article7
              world0 eq_refl) as (_ & _ & H2 & _).
  split; assumption.
Defined.


Lemma deferred_save_unresolved_dropped_witness :
  ∃ m1 m2,
    queue (handle_save blog_registry celery0 Article proxy5 world0).2 =
      [] ++ [m1; m2]
    ∧ ∀ w', run_task blog_registry blog_store m1 w' = (Ret tt, w')
            ∧ run_task blog_registry blog_store m2 w' = (Ret tt, w').
Proof.
  exact (deferred_save_unresolved_dropped blog_registry blog_store 0
           (Some ["default"]) Article proxy5 LookupError world0 eq_refl
           eq_refl eq_refl).
Defined.

Lemma task_other_error_propagates_witness :
  registry_update_task blog_registry starting_store (PkInt 7) "blog"
    "Article" world0 = (Raise AppRegistryNotReady, world0)
  ∧ registry_update_related_task blog_registry starting_store (PkInt 7)
      "blog" "Article" world0 = (Raise AppRegistryNotReady, world0).
Proof.
  exact (task_other_error_propagates blog_registry starting_store (PkInt 7)
           "blog" "Article" AppRegistryNotReady world0 eq_refl eq_refl).
Defined.

Lemma setup_twice_connects_once_witness :
  signals ((setup realtime0 ;; setup realtime0) world_busy).2 =
    signals (setup realtime0 world_busy).2.
Proof.
  assert (DjangoSignalsMixin ∈ bases (__class__ realtime0)) as Hm
    by (apply (bool_decide_unpack _); exact I).
  destruct (setup_twice_connects_once realtime0 world_busy Hm) as (_ & H & _).
  exact H.
Defined.

Lemma teardown_without_setup_witness :
  (teardown celery0 world_busy).1 = Ret tt
  ∧ signals (teardown celery0 world_busy).2 = signals world_busy.
Proof.
  apply teardown_without_setup; [reflexivity |].
  receivers_of_busy.
Defined.

Lemma other_receivers_untouched_witness :
  other_receiver ∈ receivers post_save (signals (setup celery0 world_busy).2)
  ∧ other_receiver
      ∈ receivers post_save (signals (teardown celery0 world_busy).2).
Proof.
  assert (im_self other_receiver ≠ oid celery0) as Hne by (simpl; lia).
  destruct (other_receivers_untouched celery0 post_save other_receiver
              world_busy Hne) as [Hs Ht].
  assert (other_receiver ∈ receivers post_save (signals world_busy)) as Hin
    by (apply (bool_decide_unpack _); exact I).
  split; [apply Hs | apply Ht]; exact Hin.
Defined.

Lemma new_then_teardown_witness :
  signals ((self <- new RealTimeSignalProcessor ["default"] ;; teardown self)
             world_busy).2 = signals world_busy.
Proof.
  apply new_then_teardown; [reflexivity |].
  receivers_of_busy.
Defined.

Lemma two_processors_both_subscribed_witness :
  ∃ p1 p2 w2,
    (p1 <- new CelerySignalProcessor ["default"] ;;
     p2 <- new CelerySignalProcessor ["replica"] ;;
     ret (p1, p2)) world_busy = (Ret (p1, p2), w2)
    ∧ oid p1 ≠ oid p2
    ∧ ∀ s, ∃ r1 r2,
        receivers s (signals w2) =
          receivers s (signals world_busy) ++ [r1; r2]
        ∧ im_self r1 = oid p1
        ∧ im_self r2 = oid p2.
Proof.
  apply two_processors_both_subscribed.
  - apply (bool_decide_unpack _). exact I.
  - receivers_of_busy.
Defined.

Lemma sync_handlers_agree_witness :
  handle_m2m_changed blog_registry realtime0 Article article7 "post_add" =
  handle_m2m_changed blog_registry base0 Article article7 "post_add".
Proof.
  assert (__class__ realtime0
            ∈ [BaseSignalProcessor; RealTimeSignalProcessor]) as Hrt
    by (apply (bool_decide_unpack _); exact I).
  assert (__class__ base0
            ∈ [BaseSignalProcessor; RealTimeSignalProcessor]) as Hb
    by (apply (bool_decide_unpack _); exact I).
  destruct (sync_handlers_agree blog_registry realtime0 base0 Article article7
              "post_add" Hrt Hb) as (_ & _ & _ & H).
  exact H.
Defined.
